(** * ClaritySpectra: spectral matching and preprocessing engine

    A shallow embedding of the search, scoring, filtering and name
    resolution code of [raman_analysis_app_qt6.py] and of the legacy
    [tkinter_legacy/raman_spectra.py], followed by the properties the
    specification states about them.

    Conventions of the embedding.
    - Python floats are idealised as exact numbers.  Code that only adds,
      multiplies, divides and compares is embedded over [Q], so that it
      runs; code that needs [sqrt] or [exp] (the similarity scores) is
      embedded over [R].
    - A Python exception is a value: fallible code returns [Py.result].
      A [try ... except Exception] block is [Py.catch].
    - The spectrum database (a dict keyed by entry name, whose order the
      specification declares irrelevant) is a [gmap string _]; the
      classification table, whose iteration order the resolver depends on,
      is an association list in insertion order.
    - Strings are [string]; the character classes of [str.lower],
      [str.strip], [str.isalnum] are those of Python on ASCII text. *)

From Stdlib Require Import List String Ascii ZArith QArith Qround Qabs Reals Psatz Lia Bool.
From Stdlib Require Import Permutation Sorted.
From stdpp Require Import gmap strings.
Import ListNotations.

(** ** Python results and exceptions *)

Module Py.

(** The exceptions the embedded code can meet.  [MatrixRankWarning] stands
    for scipy's report of an exactly singular system, after which the
    solver's answer holds no numbers: the idealised arithmetic has no NaN,
    so the embedding surfaces it as a failure. *)
Inductive exn : Type :=
| ValueError
| TypeError
| IndexError
| AttributeError
| ImportError
| UnboundLocalError
| MatrixRankWarning.

Inductive result (A : Type) : Type :=
| Ok (a : A)
| Raise (e : exn).
Arguments Ok {A} a.
Arguments Raise {A} e.

Definition bind {A B : Type} (r : result A) (k : A -> result B) : result B :=
  match r with
  | Ok a => k a
  | Raise e => Raise e
  end.

(** [try: body  except Exception: return d] *)
Definition catch {A : Type} (r : result A) (d : A) : A :=
  match r with
  | Ok a => a
  | Raise _ => d
  end.

(** [try: body  except ImportError: return h  except Exception: return d] *)
Definition catch_import {A : Type} (r : result A) (h : A) (d : A) : A :=
  match r with
  | Ok a => a
  | Raise ImportError => h
  | Raise _ => d
  end.

(** An attribute that may hold [None]: using it as an array raises. *)
Definition not_none {A : Type} (o : option A) : result A :=
  match o with
  | Some a => Ok a
  | None => Raise AttributeError
  end.

End Py.

#[export] Instance result_ret : MRet Py.result := @Py.Ok.
#[export] Instance result_bind : MBind Py.result := fun A B k r => Py.bind r k.

(** ** Python strings (ASCII) *)

Module PyStr.

Definition code (c : ascii) : nat := nat_of_ascii c.

Definition between (lo hi : nat) (c : ascii) : bool :=
  (lo <=? code c)%nat && (code c <=? hi)%nat.

Definition isupper (c : ascii) : bool := between 65 90 c.
Definition islower (c : ascii) : bool := between 97 122 c.
Definition isdigit (c : ascii) : bool := between 48 57 c.
Definition isalnum (c : ascii) : bool := isdigit c || isupper c || islower c.
(** [str.isspace]: TAB..CR, FS..US and the blank. *)
Definition isspace (c : ascii) : bool := between 9 13 c || between 28 32 c.

Definition lower_char (c : ascii) : ascii :=
  if isupper c then ascii_of_nat (code c + 32) else c.
Definition upper_char (c : ascii) : ascii :=
  if islower c then ascii_of_nat (code c - 32) else c.

Fixpoint map_chars (f : ascii -> ascii) (s : string) : string :=
  match s with
  | EmptyString => EmptyString
  | String c r => String (f c) (map_chars f r)
  end.

Fixpoint keep_chars (f : ascii -> bool) (s : string) : string :=
  match s with
  | EmptyString => EmptyString
  | String c r => if f c then String c (keep_chars f r) else keep_chars f r
  end.

Definition lower (s : string) : string := map_chars lower_char s.
Definition upper (s : string) : string := map_chars upper_char s.

Definition reverse (s : string) : string :=
  string_of_list_ascii (List.rev (list_ascii_of_string s)).

Fixpoint lstrip (s : string) : string :=
  match s with
  | EmptyString => EmptyString
  | String c r => if isspace c then lstrip r else s
  end.
Definition rstrip (s : string) : string := reverse (lstrip (reverse s)).
Definition strip (s : string) : string := rstrip (lstrip s).

Definition startswith (s p : string) : bool := String.prefix p s.
Definition endswith (s p : string) : bool := String.prefix (reverse p) (reverse s).

(** [s[n:]] and [s[:-n]] for [0 < n]. *)
Definition drop_prefix (n : nat) (s : string) : string :=
  String.substring n (String.length s - n) s.
Definition drop_suffix (n : nat) (s : string) : string :=
  String.substring 0 (String.length s - n) s.

(** [needle in hay] *)
Fixpoint contains (needle hay : string) : bool :=
  String.prefix needle hay
  || match hay with
     | EmptyString => false
     | String _ r => contains needle r
     end.

(** [s.split()]: the maximal runs of non-blank characters. [cur] is the
    run being read, reversed. *)
Fixpoint split_ws_from (cur : list ascii) (s : string) : list string :=
  let flush := match cur with
               | [] => []
               | _ => [string_of_list_ascii (List.rev cur)]
               end in
  match s with
  | EmptyString => flush
  | String c r =>
      if isspace c then flush ++ split_ws_from [] r
      else split_ws_from (c :: cur) r
  end.
Definition split_ws (s : string) : list string := split_ws_from [] s.

(** [s.split(sep)] for a one-character separator: empty fields are kept. *)
Fixpoint split_on_from (sep : ascii) (cur : list ascii) (s : string) : list string :=
  match s with
  | EmptyString => [string_of_list_ascii (List.rev cur)]
  | String c r =>
      if Ascii.eqb c sep
      then string_of_list_ascii (List.rev cur) :: split_on_from sep [] r
      else split_on_from sep (c :: cur) r
  end.
Definition split_on (sep : ascii) (s : string) : list string := split_on_from sep [] s.

(** [sep.join(l)] *)
Fixpoint join (sep : string) (l : list string) : string :=
  match l with
  | [] => EmptyString
  | [x] => x
  | x :: r => String.append x (String.append sep (join sep r))
  end.

(** [re.findall(r'[A-Z][a-z]?', s)] *)
Fixpoint findall_element (s : string) : list string :=
  match s with
  | EmptyString => []
  | String c r =>
      if isupper c then
        match r with
        | String d r' =>
            if islower d
            then String c (String d EmptyString) :: findall_element r'
            else String c EmptyString :: findall_element r
        | EmptyString => [String c EmptyString]
        end
      else findall_element r
  end.

End PyStr.

(** ** Database entries

    An entry of the spectrum database: the dict stored under the entry's
    name.  [peaks] is duck-typed in the code; [peaks_field] lists the
    shapes the filter tells apart. *)

(** An element of a peak list. [POther] is any object [float()] rejects. *)
Inductive pyval : Type :=
| PNone
| PInt (z : Z)
| PFloat (q : Q)
| POther.

(** The value under ["wavenumbers"] in a peaks dict. *)
Inductive peak_array : Type :=
| ArrAbsent                      (* key missing, or None *)
| ArrNumpy (a : list Q)          (* a numpy array: has [size] and [tolist] *)
| ArrList (l : list pyval).      (* a plain list: no [size] attribute *)

Inductive peaks_field : Type :=
| PeaksMissing                   (* no 'peaks' key: [data.get('peaks', [])] *)
| PeaksDict (w : peak_array)     (* {"wavenumbers": ...} *)
| PeaksList (l : list pyval)     (* list or tuple *)
| PeaksOther.                    (* anything else, e.g. a bare numpy array *)

Record db_entry : Type := mk_entry {
  wavenumbers : list Q;
  intensities : list Q;
  metadata : list (string * string);
  peaks : peaks_field;
  timestamp : string
}.

(** [d.get(key, '')] on a metadata dict. *)
Fixpoint meta_get (md : list (string * string)) (key : string) : string :=
  match md with
  | [] => EmptyString
  | (k, v) :: r => if String.eqb k key then v else meta_get r key
  end.

(** ** The legacy engine: [tkinter_legacy/raman_spectra.py] *)

Module Legacy.

(** A value of the classification table: the metadata dict of a mineral. *)
Record classification : Type := mk_class {
  hey_class : string;
  extra_fields : list (string * string)
}.

(** The table itself, in insertion order. *)
Definition taxonomy : Type := list (string * classification).

(** [name in table] and [table[name]]. *)
Fixpoint tax_lookup (t : taxonomy) (name : string) : option classification :=
  match t with
  | [] => None
  | (k, v) :: r => if String.eqb k name then Some v else tax_lookup r name
  end.

Definition common_suffixes : list string :=
  ["-type"; " var."; " var "; " group"; " series"; " family";
   " like"; " structure"; " form"; "-rich"; "-poor"]%string.

Definition common_prefixes : list string :=
  ["hydro"; "meta"; "para"; "proto"; "pseudo"; "ortho"; "clino"]%string.

(** The suffix loop: the first suffix the name ends with is cut, then [break]. *)
Fixpoint strip_suffix (sufs : list string) (cleaned : string) : string :=
  match sufs with
  | [] => cleaned
  | suffix :: r =>
      if PyStr.endswith cleaned suffix
      then PyStr.strip (PyStr.drop_suffix (String.length suffix) cleaned)
      else strip_suffix r cleaned
  end.

(** The prefix loop: a prefix is cut only when more than one character
    would remain; the first prefix cut ends the loop. *)
Fixpoint strip_prefix (pres : list string) (cleaned : string) : string :=
  match pres with
  | [] => cleaned
  | pre :: r =>
      if PyStr.startswith cleaned pre
         && (String.length pre + 1 <? String.length cleaned)%nat
      then PyStr.strip (PyStr.drop_prefix (String.length pre) cleaned)
      else strip_prefix r cleaned
  end.

Definition _clean_mineral_name (name : string) : string :=
  if String.eqb name EmptyString then EmptyString else
  let cleaned := PyStr.strip (PyStr.lower name) in
  let cleaned := strip_suffix common_suffixes cleaned in
  let cleaned := strip_prefix common_prefixes cleaned in
  let cleaned := PyStr.keep_chars (fun c => PyStr.isalnum c || PyStr.isspace c) cleaned in
  PyStr.join " " (PyStr.split_ws cleaned).

(** Stage 3 of the resolver: the first key, in table order, whose
    lower-cased form contains the cleaned name. *)
Fixpoint substring_scan (t : taxonomy) (name_to_match : string)
  : option (string * classification) :=
  match t with
  | [] => None
  | (db_name, md) :: r =>
      if PyStr.contains name_to_match (PyStr.lower db_name)
      then Some (db_name, md)
      else substring_scan r name_to_match
  end.

Section Resolver.

(** [SequenceMatcher(None, a, b).ratio()] of Python's [difflib], which is
    not part of the repository: a parameter of the resolver. *)
Variable ratio : string -> string -> Q.

(** Stage 4: the loop over the table, carrying [best_match], [best_score]
    and [best_metadata]. *)
Fixpoint fuzzy_scan (t : taxonomy) (name_to_match : string) (threshold : Q)
  (best : option (string * classification)) (best_score : Q)
  : option (string * classification) :=
  match t with
  | [] => best
  | (db_name, md) :: r =>
      let ra := ratio name_to_match (PyStr.lower db_name) in
      if negb (Qle_bool ra best_score) && Qle_bool threshold ra
      then fuzzy_scan r name_to_match threshold (Some (db_name, md)) ra
      else fuzzy_scan r name_to_match threshold best best_score
  end.

Definition match_mineral_name (hey_classification : taxonomy)
  (mineral_name : string) (threshold : Q) : option (string * classification) :=
  if String.eqb mineral_name EmptyString then None else
  match hey_classification with [] => None | _ =>
  let name_to_match := _clean_mineral_name mineral_name in
  if String.eqb name_to_match EmptyString then None else
  (* 1. exact match *)
  match tax_lookup hey_classification mineral_name with
  | Some md => Some (mineral_name, md)
  | None =>
  (* 2. cleaned name *)
  match tax_lookup hey_classification name_to_match with
  | Some md => Some (name_to_match, md)
  | None =>
  (* 3. containment *)
  match substring_scan hey_classification name_to_match with
  | Some hit => Some hit
  | None =>
  (* 4. fuzzy matching; [if best_match:] drops an empty key *)
  match fuzzy_scan hey_classification name_to_match threshold None 0 with
  | Some (best_match, best_metadata) =>
      if String.eqb best_match EmptyString then None
      else Some (best_match, best_metadata)
  | None => None
  end end end end end.

(** The resolver as the specification words it: four lookup stages tried
    in order, the first hit wins. *)
Definition stage_exact (t : taxonomy) (name : string)
  : option (string * classification) :=
  match tax_lookup t name with
  | Some md => Some (name, md)
  | None => None
  end.

Definition stage_cleaned (t : taxonomy) (name : string)
  : option (string * classification) :=
  stage_exact t (_clean_mineral_name name).

Definition stage_substring (t : taxonomy) (name : string)
  : option (string * classification) :=
  substring_scan t (_clean_mineral_name name).

Definition stage_fuzzy (t : taxonomy) (name : string) (threshold : Q)
  : option (string * classification) :=
  match fuzzy_scan t (_clean_mineral_name name) threshold None 0 with
  | Some (k, md) => if String.eqb k EmptyString then None else Some (k, md)
  | None => None
  end.

Fixpoint first_hit {A : Type} (stages : list (option A)) : option A :=
  match stages with
  | [] => None
  | Some a :: _ => Some a
  | None :: r => first_hit r
  end.

Definition resolve_by_stages (t : taxonomy) (name : string) (threshold : Q)
  : option (string * classification) :=
  first_hit [stage_exact t name; stage_cleaned t name;
             stage_substring t name; stage_fuzzy t name threshold].

End Resolver.

(** The default of [match_mineral_name]'s [threshold] argument. *)
Definition default_threshold : Q := 8 # 10.

(** An instance of the [ratio] parameter for examples: [difflib]'s ratio
    [2 * M / T] on strings shorter than 200 characters (where its
    popularity heuristic is off).  [M] sums the blocks found by taking
    the longest common block, the earliest in the first string and then
    in the second among equals, and recurring on both sides of it. *)
Fixpoint common_prefix_len (a b : list ascii) : nat :=
  match a, b with
  | x :: a', y :: b' => if Ascii.eqb x y then S (common_prefix_len a' b') else O
  | _, _ => O
  end.

Fixpoint best_in_b (a b : list ascii) (j : nat) : nat * nat :=
  match b with
  | [] => (O, O)
  | _ :: b' =>
      let k := common_prefix_len a b in
      let '(j', k') := best_in_b a b' (S j) in
      if (k' <=? k)%nat then (j, k) else (j', k')
  end.

Fixpoint find_longest_match (a b : list ascii) (i : nat) : nat * nat * nat :=
  match a with
  | [] => (O, O, O)
  | _ :: a' =>
      let '(j, k) := best_in_b a b O in
      let '(i', j', k') := find_longest_match a' b (S i) in
      if (k' <=? k)%nat then (i, j, k) else (i', j', k')
  end.

Fixpoint matching_chars (fuel : nat) (a b : list ascii) : nat :=
  match fuel with
  | O => O
  | S fuel' =>
      let '(i, j, k) := find_longest_match a b O in
      if (k =? 0)%nat then O
      else (k + matching_chars fuel' (firstn i a) (firstn j b)
              + matching_chars fuel' (skipn (i + k) a) (skipn (j + k) b))%nat
  end.

Definition difflib_ratio (s t : string) : Q :=
  let a := list_ascii_of_string s in
  let b := list_ascii_of_string t in
  let T := (List.length a + List.length b)%nat in
  if (T =? 0)%nat then 1
  else Z.of_nat (2 * matching_chars (S (List.length a)) a b) # Pos.of_nat T.

(** *** Baseline estimation *)

Local Open Scope Q_scope.

(** Dense stand-ins for the numpy and scipy.sparse values the estimator
    builds: a matrix is the list of its rows. *)
Definition b2q (b : bool) : Q := if b then 1 else 0.






(** [W + lam * G] for the diagonal matrix [W] of the weights [w]. *)
Definition penalized (w : list Q) (lam : Q) (G : list (list Q)) : list (list Q) :=
  imap (fun i row => imap (fun j g => b2q (Nat.eqb i j) * nth i w 0 + lam * g) row) G.

(** Exact Gauss-Jordan elimination on the augmented rows: [done] holds
    the rows already pivoted, one per eliminated column and in column
    order, [rest] the others. *)
Fixpoint find_pivot (c : nat) (seen rest : list (list Q))
  : option (list Q * list (list Q)) :=
  match rest with
  | [] => None
  | r :: rest' =>
      if Qeq_bool (nth c r 0) 0
      then find_pivot c (seen ++ [r]) rest'
      else Some (r, seen ++ rest')
  end.

Definition row_scale (k : Q) (r : list Q) : list Q := map (fun x => Qred (k * x)) r.
Definition row_elim (c : nat) (piv r : list Q) : list Q :=
  zip_with (fun x y => Qred (x - nth c r 0 * y)) r piv.

Fixpoint gauss_jordan (cols : list nat) (done rest : list (list Q))
  : option (list (list Q)) :=
  match cols with
  | [] => Some done
  | c :: cols' =>
      match find_pivot c [] rest with
      | None => None
      | Some (piv, others) =>
          let piv' := row_scale (/ nth c piv 0) piv in
          gauss_jordan cols' (map (row_elim c piv') done ++ [piv'])
                       (map (row_elim c piv') others)
      end
  end.

(** [spsolve(Z, b)]: the solution of [Z x = b]. *)
Definition spsolve (Z : list (list Q)) (b : list Q) : Py.result (list Q) :=
  match gauss_jordan (seq 0%nat (List.length b)) []
                     (zip_with (fun row bi => row ++ [bi]) Z b) with
  | Some done => Py.Ok (map (fun r => List.last r 0) done)
  | None => Py.Raise Py.MatrixRankWarning
  end.

(** [w = p * (y > z) + (1 - p) * (y <= z)] *)
Definition reweight (p : Q) (y z : list Q) : list Q :=
  zip_with (fun yi zi =>
              p * b2q (negb (Qle_bool yi zi)) + (1 - p) * b2q (Qle_bool yi zi)) y z.

(** The body of the [for] loop, [n] times; [z] is unbound ([None]) until
    the first pass assigns it. *)
Fixpoint als_loop (n : nat) (G : list (list Q)) (y : list Q) (lam p : Q)
  (w : list Q) (z : option (list Q)) : Py.result (option (list Q)) :=
  match n with
  | O => Py.Ok z
  | S n' =>
      z' ← spsolve (penalized w lam G) (zip_with Qmult w y);
      als_loop n' G y lam p (reweight p y z') (Some z')
  end.


(** *** The engine's state *)

Record raman_spectra : Type := mk_spectra {
  current_spectra : option (list Q);
  current_wavenumbers : option (list Q);
  processed_spectra : option (list Q);
  background : option (list Q);
  database : gmap string db_entry;
  hey_classification : taxonomy;
  (* what the file at [db_path] holds *)
  pickled : gmap string db_entry
}.



(** [save_database]: the dump may fail ([io_ok = false]); the failure is
    caught inside and only changes the returned flag. *)
Definition save_database (io_ok : bool) (self : raman_spectra) : bool * raman_spectra :=
  if io_ok
  then (true, mk_spectra (current_spectra self) (current_wavenumbers self)
                         (processed_spectra self) (background self)
                         (database self) (hey_classification self) (database self))
  else (false, self).

Definition remove_from_database (io_ok : bool) (self : raman_spectra) (name : string)
  : bool * raman_spectra :=
  match database self !! name with
  | Some _ =>
      let self' := mk_spectra (current_spectra self) (current_wavenumbers self)
                              (processed_spectra self) (background self)
                              (delete name (database self))
                              (hey_classification self) (pickled self) in
      (true, snd (save_database io_ok self'))
  | None => (false, self)
  end.

End Legacy.

(** ** numpy on real numbers *)

Module Np.

Local Open Scope R_scope.

(** Python's two-argument [min] and [max]: the first argument is kept
    unless the second is strictly smaller (larger). *)
Definition py_min (a b : R) : R := if Rlt_dec b a then b else a.
Definition py_max (a b : R) : R := if Rlt_dec a b then b else a.

(** [max(0, min(1, s))] *)
Definition clip01 (s : R) : R := py_max 0 (py_min 1 s).

Definition sum (l : list R) : R := fold_right Rplus 0 l.

Definition mean (l : list R) : R := sum l / INR (List.length l).

(** [np.var]: the mean of the squared deviations from the mean. *)
Definition var (l : list R) : R := mean (map (fun x => (x - mean l) * (x - mean l)) l).

Definition std (l : list R) : R := sqrt (var l).

(** [a.min()] and [a.max()]: an empty array raises. *)
Definition amin (l : list R) : Py.result R :=
  match l with
  | [] => Py.Raise Py.ValueError
  | x :: r => Py.Ok (fold_left Rmin r x)
  end.
Definition amax (l : list R) : Py.result R :=
  match l with
  | [] => Py.Raise Py.ValueError
  | x :: r => Py.Ok (fold_left Rmax r x)
  end.

(** [np.linspace(start, stop, num)]: [start + i * step] for
    [step = (stop - start) / (num - 1)], the last point set to [stop]. *)
Definition linspace (start stop : R) (num : nat) : list R :=
  match num with
  | O => []
  | S O => [start]
  | S n =>
      map (fun i => start + INR i * ((stop - start) / INR n)) (seq 0 n) ++ [stop]
  end.

(** [np.interp] at one point [x] with [xp[j] <= x] for the knot
    [(x0, y0)] in hand: the knot moves right while the next one is not
    beyond [x]; at the last knot, or on a knot, the knot's value;
    otherwise the chord to the next knot. *)
Fixpoint interp_from (x x0 y0 : R) (xs ys : list R) : R :=
  match xs, ys with
  | x1 :: xs', y1 :: ys' =>
      if Rle_dec x1 x then interp_from x x1 y1 xs' ys'
      else if Req_dec_T x0 x then y0
           else (y1 - y0) / (x1 - x0) * (x - x0) + y0
  | _, _ => y0
  end.

Definition interp_at (xp fp : list R) (x : R) : R :=
  match xp, fp with
  | x0 :: xs, y0 :: ys => if Rlt_dec x x0 then y0 else interp_from x x0 y0 xs ys
  | _, _ => 0
  end.

(** [np.interp(x, xp, fp)] for increasing [xp]; no sample points, or
    [xp] and [fp] of different lengths, raise. *)
Definition interp (x xp fp : list R) : Py.result (list R) :=
  if (List.length xp =? 0)%nat then Py.Raise Py.ValueError
  else if (List.length xp =? List.length fp)%nat
       then Py.Ok (map (interp_at xp fp) x)
       else Py.Raise Py.ValueError.

(** [np.cov(x, y)] entries (one degree of freedom removed) and
    [np.corrcoef(x, y)[0, 1]], which numpy clips into [-1, 1]. *)
Definition cov (x y : list R) : R :=
  sum (zip_with (fun a b => (a - mean x) * (b - mean y)) x y)
  * (1 / (INR (List.length x) - 1)).

Definition corrcoef01 (x y : list R) : R :=
  py_min 1 (py_max (-1) (cov x y / sqrt (cov x x) / sqrt (cov y y))).

(** [a[idx]] for an array of indices; an index out of range raises. *)
Fixpoint take_indices (a : list R) (idx : list nat) : Py.result (list R) :=
  match idx with
  | [] => Py.Ok []
  | i :: r =>
      match a !! i with
      | None => Py.Raise Py.IndexError
      | Some v => rest ← take_indices a r; Py.Ok (v :: rest)
      end
  end.

(** [np.argmin]: the first index of the least element, with that element. *)
Fixpoint argmin_from (best_i : nat) (best : R) (i : nat) (l : list R) : nat * R :=
  match l with
  | [] => (best_i, best)
  | x :: r =>
      if Rlt_dec x best then argmin_from i x (S i) r
      else argmin_from best_i best (S i) r
  end.
Definition argmin (l : list R) : Py.result (nat * R) :=
  match l with
  | [] => Py.Raise Py.ValueError
  | x :: r => Py.Ok (argmin_from O x 1%nat r)
  end.

(** Total readings of [amin] and [amax], for non-empty arrays. *)
Definition min_of (l : list R) : R := fold_left Rmin (tail l) (hd 0 l).
Definition max_of (l : list R) : R := fold_left Rmax (tail l) (hd 0 l).

(** The Pearson correlation coefficient of two series, as textbooks
    define it: the sum of the products of the deviations from the means
    over the root of the product of the sums of their squares. *)
Definition pearson (x y : list R) : R :=
  sum (zip_with (fun a b => (a - mean x) * (b - mean y)) x y)
  / sqrt (sum (map (fun a => (a - mean x) * (a - mean x)) x)
          * sum (map (fun b => (b - mean y) * (b - mean y)) y)).

(** The common grid of two spectra: over the intersection of their
    wavenumber ranges, with as many points as the shorter one (at most
    [cap] when a cap is given). *)
Definition overlap_start (qw dw : list R) : R := Rmax (min_of qw) (min_of dw).
Definition overlap_end (qw dw : list R) : R := Rmin (max_of qw) (max_of dw).
Definition common_grid (qw dw : list R) : list R :=
  linspace (overlap_start qw dw) (overlap_end qw dw)
           (Nat.min (List.length qw) (List.length dw)).

(** A spectrum resampled onto a grid by linear interpolation. *)
Definition resample (xp fp grid : list R) : list R := map (interp_at xp fp) grid.

(** A body whose every normal result is a score. *)
Definition unit_result (r : Py.result R) : Prop :=
  match r with
  | Py.Ok v => 0 <= v <= 1
  | Py.Raise _ => True
  end.

End Np.

(** ** The application: [raman_analysis_app_qt6.py] *)

Module App.

Local Open Scope R_scope.

(** The attributes of the main window the search reads. *)
Record app : Type := mk_app {
  current_wavenumbers : option (list R);
  current_intensities : option (list R);
  processed_intensities : option (list R);
  detected_peaks : option (list nat);
  database : gmap string db_entry
}.

Section Scoring.

(** [fastdtw.fastdtw(x, y, dist)], of a package that may not be
    installed: [None] when its import fails, else the function from the
    two sequences to the alignment cost and the warping path.  The
    distance passed in the code is [abs(float(a) - float(b))]. *)
Variable fastdtw : option (list R -> list R -> R * list (nat * nat)).

(** [scipy.signal.find_peaks(x, height=h)[0]]: the peak indices. *)
Variable find_peaks : list R -> R -> list nat.

Variable self : app.

(** The body of [calculate_correlation_score], inside its [try]. *)
Definition correlation_body (db_wavenumbers db_intensities : list R) : Py.result R :=
  if ((List.length db_wavenumbers =? 0) || (List.length db_intensities =? 0))%nat
  then Py.Ok 0 else
  cw ← Py.not_none (current_wavenumbers self);
  qmin ← Np.amin cw;
  dmin ← Np.amin db_wavenumbers;
  qmax ← Np.amax cw;
  dmax ← Np.amax db_wavenumbers;
  let common_wavenumbers :=
    Np.linspace (Np.py_max qmin dmin) (Np.py_min qmax dmax)
                (Nat.min (List.length cw) (List.length db_wavenumbers)) in
  pi ← Py.not_none (processed_intensities self);
  query_interp ← Np.interp common_wavenumbers cw pi;
  db_interp ← Np.interp common_wavenumbers db_wavenumbers db_intensities;
  let query_std := Np.std query_interp in
  let db_std := Np.std db_interp in
  if Req_dec_T query_std 0 then Py.Ok 0 else
  if Req_dec_T db_std 0 then Py.Ok 0 else
  let query_norm := map (fun v => (v - Np.mean query_interp) / query_std) query_interp in
  let db_norm := map (fun v => (v - Np.mean db_interp) / db_std) db_interp in
  let correlation := Np.corrcoef01 query_norm db_norm in
  let similarity := Rabs correlation in
  Py.Ok (Np.clip01 similarity).

Definition calculate_correlation_score (db_wavenumbers db_intensities : list R) : R :=
  Py.catch (correlation_body db_wavenumbers db_intensities) 0.

(** Min-max normalisation of one series, as the two [if]s do it. *)
Definition minmax_norm (v : list R) (lo hi : R) : list R :=
  if Rlt_dec lo hi then map (fun x => (x - lo) / (hi - lo)) v else v.

(** The body of [calculate_dtw_score], inside its [try]; the import is
    its first statement. *)
Definition dtw_body (db_wavenumbers db_intensities : list R) : Py.result R :=
  match fastdtw with
  | None => Py.Raise Py.ImportError
  | Some dtw =>
  if ((List.length db_wavenumbers =? 0) || (List.length db_intensities =? 0))%nat
  then Py.Ok 0 else
  cw ← Py.not_none (current_wavenumbers self);
  qmin ← Np.amin cw;
  dmin ← Np.amin db_wavenumbers;
  let overlap_start := Np.py_max qmin dmin in
  qmax ← Np.amax cw;
  dmax ← Np.amax db_wavenumbers;
  let overlap_end := Np.py_min qmax dmax in
  let query_range := qmax - qmin in
  let db_range := dmax - dmin in
  let overlap_range := overlap_end - overlap_start in
  if Rlt_dec overlap_range (3 / 10 * Np.py_min query_range db_range)
  then Py.Ok 0 else
  let n_points := Nat.min 200 (Nat.min (List.length cw) (List.length db_wavenumbers)) in
  let common_wavenumbers := Np.linspace overlap_start overlap_end n_points in
  pi ← Py.not_none (processed_intensities self);
  query_interp ← Np.interp common_wavenumbers cw pi;
  db_interp ← Np.interp common_wavenumbers db_wavenumbers db_intensities;
  if Req_dec_T (Np.std query_interp) 0 then Py.Ok 0 else
  if Req_dec_T (Np.std db_interp) 0 then Py.Ok 0 else
  query_min ← Np.amin query_interp;
  query_max ← Np.amax query_interp;
  db_min ← Np.amin db_interp;
  db_max ← Np.amax db_interp;
  let query_norm := minmax_norm query_interp query_min query_max in
  let db_norm := minmax_norm db_interp db_min db_max in
  let '(distance, path) := dtw query_norm db_norm in
  if (0 <? List.length path)%nat then
    let normalized_distance := distance / INR (List.length path) in
    let scaled_distance := normalized_distance * 2 in
    let similarity := exp (- scaled_distance) in
    Py.Ok (Np.clip01 similarity)
  else Py.Ok 0
  end.

Definition calculate_dtw_score (db_wavenumbers db_intensities : list R) : R :=
  Py.catch_import (dtw_body db_wavenumbers db_intensities)
    (calculate_correlation_score db_wavenumbers db_intensities) 0.

(** The loop of [calculate_peak_score] over the query's peaks, carrying
    [matched_peaks] and [total_intensity_diff]. *)
Fixpoint match_peaks (tolerance curr_max db_max : R)
  (db_peak_positions db_peak_intensities : list R)
  (current : list (R * R)) (matched_peaks : nat) (total_intensity_diff : R)
  : Py.result (nat * R) :=
  match current with
  | [] => Py.Ok (matched_peaks, total_intensity_diff)
  | (curr_pos, curr_int) :: rest =>
      let distances := map (fun p => Rabs (p - curr_pos)) db_peak_positions in
      '(min_dist_idx, min_distance) ← Np.argmin distances;
      if Rle_dec min_distance tolerance then
        match db_peak_intensities !! min_dist_idx with
        | None => Py.Raise Py.IndexError
        | Some db_int =>
            let curr_norm := curr_int / curr_max in
            let db_norm := db_int / db_max in
            let intensity_diff := Rabs (curr_norm - db_norm) in
            match_peaks tolerance curr_max db_max db_peak_positions db_peak_intensities
                        rest (S matched_peaks) (total_intensity_diff + intensity_diff)
        end
      else match_peaks tolerance curr_max db_max db_peak_positions db_peak_intensities
                       rest matched_peaks total_intensity_diff
  end.

Definition peak_body (db_wavenumbers db_intensities : list R) : Py.result R :=
  match detected_peaks self with
  | None => Py.Ok 0
  | Some [] => Py.Ok 0
  | Some dp =>
  cw ← Py.not_none (current_wavenumbers self);
  current_peak_positions ← Np.take_indices cw dp;
  pi ← Py.not_none (processed_intensities self);
  current_peak_intensities ← Np.take_indices pi dp;
  if ((List.length db_wavenumbers =? 0) || (List.length db_intensities =? 0))%nat
  then Py.Ok 0 else
  imax ← Np.amax db_intensities;
  let db_peaks := find_peaks db_intensities (imax * (1 / 10)) in
  if (List.length db_peaks =? 0)%nat then Py.Ok 0 else
  db_peak_positions ← Np.take_indices db_wavenumbers db_peaks;
  db_peak_intensities ← Np.take_indices db_intensities db_peaks;
  let tolerance := 20 in
  curr_max ← Np.amax current_peak_intensities;
  db_max ← Np.amax db_peak_intensities;
  '(matched_peaks, total_intensity_diff) ←
    match_peaks tolerance curr_max db_max db_peak_positions db_peak_intensities
                (zip current_peak_positions current_peak_intensities) O 0;
  if (matched_peaks =? 0)%nat then Py.Ok 0 else
  let peak_match_ratio := INR matched_peaks / INR (List.length current_peak_positions) in
  let avg_intensity_similarity := 1 - total_intensity_diff / INR matched_peaks in
  let score := 7 / 10 * peak_match_ratio + 3 / 10 * avg_intensity_similarity in
  Py.Ok (Np.clip01 score)
  end.

Definition calculate_peak_score (db_wavenumbers db_intensities : list R) : R :=
  Py.catch (peak_body db_wavenumbers db_intensities) 0.

Definition calculate_combined_score (db_wavenumbers db_intensities : list R) : R :=
  let correlation_score := calculate_correlation_score db_wavenumbers db_intensities in
  let dtw_score := calculate_dtw_score db_wavenumbers db_intensities in
  let combined_score := 3 / 10 * correlation_score + 7 / 10 * dtw_score in
  Np.clip01 combined_score.

End Scoring.

(** *** Filters *)

(** The dict built by [parse_advanced_filters]: a key that is absent is
    [None].  The parser sets [peak_positions] only from a non-empty text,
    so the list under it is never empty. *)
Record filters : Type := mk_filters {
  peak_positions : option (list Q);
  peak_tolerance : option Q;
  chemical_family : option string;
  hey_classification : option string;
  only_elements : option (list string);
  required_elements : option (list string);
  exclude_elements : option (list string)
}.

(** [float(p)] and [int(p)]; [None] when they raise. *)
Definition py_float (p : pyval) : option Q :=
  match p with
  | PInt z => Some (inject_Z z)
  | PFloat q => Some q
  | PNone | POther => None
  end.

Definition py_int (p : pyval) : option Z :=
  match p with
  | PInt z => Some z
  | PFloat q => Some (Z.quot (Qnum q) (Zpos (Qden q)))
  | PNone | POther => None
  end.

(** [isinstance(p, (int, float)) and 0 <= p < n] *)
Definition looks_like_index (n : nat) (p : pyval) : bool :=
  match p with
  | PInt z => (0 <=? z)%Z && (z <? Z.of_nat n)%Z
  | PFloat q => Qle_bool 0 q && negb (Qle_bool (inject_Z (Z.of_nat n)) q)
  | PNone | POther => false
  end.

(** [all(... for p in peaks if p is not None)] *)
Definition all_look_like_indices (n : nat) (l : list pyval) : bool :=
  forallb (fun p => match p with PNone => true | _ => looks_like_index n p end) l.

(** The legacy branch: each index is replaced by the wavenumber it
    points at; [None] is the branch's [except ...: return False]. *)
Fixpoint indices_to_wavenumbers (wn : list Q) (l : list pyval) : option (list Q) :=
  match l with
  | [] => Some []
  | PNone :: r => indices_to_wavenumbers wn r
  | p :: r =>
      match py_int p with
      | None => None
      | Some i =>
          if (0 <=? i)%Z && (i <? Z.of_nat (List.length wn))%Z
          then match wn !! Z.to_nat i, indices_to_wavenumbers wn r with
               | Some w, Some rest => Some (w :: rest)
               | _, _ => None
               end
          else indices_to_wavenumbers wn r
      end
  end.

(** The other branch: the values are wavenumbers; what [float()]
    rejects and what is not above 50 is dropped. *)
Fixpoint direct_wavenumbers (l : list pyval) : list Q :=
  match l with
  | [] => []
  | p :: r =>
      match py_float p with
      | Some v => if Qle_bool v 50 then direct_wavenumbers r
                  else v :: direct_wavenumbers r
      | None => direct_wavenumbers r
      end
  end.

(** [valid_spectrum_peaks], or [None] where the code returns [False]
    for want of peak data. *)
Definition valid_spectrum_peaks (data : db_entry) : option (list Q) :=
  match peaks data with
  | PeaksDict (ArrNumpy a) => if (0 <? List.length a)%nat then Some a else None
  | PeaksDict (ArrList _) => None
  | PeaksDict ArrAbsent => None
  | PeaksList [] => None
  | PeaksList l =>
      let spectrum_wavenumbers := wavenumbers data in
      if (0 <? List.length spectrum_wavenumbers)%nat
         && all_look_like_indices (List.length spectrum_wavenumbers) l
      then indices_to_wavenumbers spectrum_wavenumbers l
      else Some (direct_wavenumbers l)
  | PeaksMissing | PeaksOther => None
  end.

Definition default_tolerance : Q := 10.

(** The wavenumber an index element points at. *)
Definition index_wavenumber (wn : list Q) (p : pyval) : option Q :=
  match py_int p with
  | Some i => if (0 <=? i)%Z then wn !! Z.to_nat i else None
  | None => None
  end.

(** The legacy conversion as the specification words it: every element
    of the list is an index into the entry's wavenumbers, and an index
    out of range is skipped. *)
Fixpoint spec_index_peaks (wn : list Q) (l : list pyval) : list Q :=
  match l with
  | [] => []
  | p :: r =>
      match index_wavenumber wn p with
      | Some w => w :: spec_index_peaks wn r
      | None => spec_index_peaks wn r
      end
  end.

(** The inner loop: some peak within [tolerance] of [required_peak]. *)
Definition peak_found (tolerance : Q) (spectrum_peaks : list Q) (required_peak : Q) : bool :=
  existsb (fun peak => Qle_bool (Qabs (peak - required_peak)) tolerance) spectrum_peaks.

Definition passes_peak_filter (data : db_entry) (f : filters) : bool :=
  match peak_positions f with
  | None => true
  | Some required_peaks =>
      let tolerance := match peak_tolerance f with
                       | Some t => t
                       | None => default_tolerance
                       end in
      match valid_spectrum_peaks data with
      | None => false
      | Some spectrum_peaks => forallb (peak_found tolerance spectrum_peaks) required_peaks
      end
  end.

(** [a or b] on strings. *)
Definition str_or (a b : string) : string := if String.eqb a EmptyString then b else a.

Definition str_in (x : string) (l : list string) : bool := existsb (String.eqb x) l.

Definition passes_text_filter (wanted : option string) (field : string) : bool :=
  match wanted with
  | None => true
  | Some w =>
      negb (String.eqb field EmptyString)
      && PyStr.contains (PyStr.lower w) (PyStr.lower field)
  end.

Definition passes_element_filters (md : list (string * string)) (f : filters) : bool :=
  let chemistry_elements :=
    str_or (meta_get md "CHEMISTRY ELEMENTS") (meta_get md "Chemistry Elements") in
  let formula := str_or (meta_get md "FORMULA") (meta_get md "Formula") in
  let elements_source := str_or chemistry_elements formula in
  match only_elements f, required_elements f, exclude_elements f with
  | None, None, None => true
  | only, required, excluded =>
      if String.eqb elements_source EmptyString then false else
      let elements_in_spectrum :=
        if negb (String.eqb chemistry_elements EmptyString)
        then map (fun e => PyStr.upper (PyStr.strip e)) (PyStr.split_on "," chemistry_elements)
        else PyStr.findall_element formula in
      match only with
      | Some allowed => forallb (fun e => str_in e allowed) elements_in_spectrum
      | None => true
      end
      && match required with
         | Some req => forallb (fun e => str_in e elements_in_spectrum) req
         | None => true
         end
      && match excluded with
         | Some exc => negb (existsb (fun e => str_in e exc) elements_in_spectrum)
         | None => true
         end
  end.

Definition spectrum_passes_filters (name : string) (data : db_entry) (f : filters) : bool :=
  passes_peak_filter data f
  && passes_text_filter (chemical_family f)
       (str_or (meta_get (metadata data) "CHEMICAL FAMILY")
               (meta_get (metadata data) "Chemical Family"))
  && passes_text_filter (hey_classification f)
       (meta_get (metadata data) "HEY CLASSIFICATION")
  && passes_element_filters (metadata data) f.

Definition apply_metadata_filters (self : app) (f : filters) : list (string * db_entry) :=
  List.filter (fun nd => spectrum_passes_filters nd.1 nd.2 f)
              (map_to_list (database self)).

(** *** Search *)

(** One element of [matches]. *)
Record match_result : Type := mk_match {
  m_name : string;
  m_score : R;
  m_metadata : list (string * string);
  m_peaks : peaks_field;
  m_timestamp : string
}.

(** [list.sort(key=...)]: a stable sort, here by insertion; [le x y]
    says that [x] may stand before [y]. *)
Fixpoint insert_sorted {A : Type} (le : A -> A -> bool) (x : A) (l : list A) : list A :=
  match l with
  | [] => [x]
  | y :: r => if le x y then x :: l else y :: insert_sorted le x r
  end.

Definition stable_sort {A : Type} (le : A -> A -> bool) (l : list A) : list A :=
  fold_right (insert_sorted le) [] l.

Definition by_name (a b : match_result) : bool := String.leb (m_name a) (m_name b).

(** [reverse=True] on the score. *)
Definition by_score_desc (a b : match_result) : bool :=
  if Rle_dec (m_score b) (m_score a) then true else false.

(** What [perform_advanced_search] ends with: one of its messages, or
    the matches it displays, with the mode it reports. *)
Inductive search_outcome : Type :=
| NoData
| EmptyDatabase
| NoResults
| Displayed (is_peak_only_search : bool) (matches : list match_result).

Section Search.

Variable fastdtw : option (list R -> list R -> R * list (nat * nat)).
Variable find_peaks : list R -> R -> list nat.
Variable self : app.

Definition score_with (algorithm : string) (wn ints : list R) : R :=
  if String.eqb algorithm "correlation" then calculate_correlation_score self wn ints
  else if String.eqb algorithm "peak" then calculate_peak_score find_peaks self wn ints
  else if String.eqb algorithm "combined" then calculate_combined_score fastdtw self wn ints
  else if String.eqb algorithm "DTW" then calculate_dtw_score fastdtw self wn ints
  else calculate_correlation_score self wn ints.

Definition candidate_matches (algorithm : string) (threshold : R)
  (candidate : string * db_entry) : list match_result :=
  let '(name, data) := candidate in
  if ((List.length (wavenumbers data) =? 0) || (List.length (intensities data) =? 0))%nat
  then []
  else
    let score := score_with algorithm (map Q2R (wavenumbers data))
                            (map Q2R (intensities data)) in
    if Rle_dec threshold score
    then [mk_match name score (metadata data) (peaks data) (timestamp data)]
    else [].

Definition search_filtered_candidates (candidates : list (string * db_entry))
  (algorithm : string) (n_matches : nat) (threshold : R) : list match_result :=
  let matches := flat_map (candidate_matches algorithm threshold) candidates in
  firstn n_matches (stable_sort by_score_desc matches).

Definition peak_only_match (candidate : string * db_entry) : match_result :=
  mk_match candidate.1 1 (metadata candidate.2) (peaks candidate.2)
           (timestamp candidate.2).

Definition perform_advanced_search (algorithm : string) (n_matches : nat)
  (threshold : R) (f : filters) : search_outcome :=
  match current_wavenumbers self, current_intensities self with
  | Some _, Some _ =>
      if decide (database self = ∅) then EmptyDatabase else
      let is_peak_only_search :=
        match peak_positions f with
        | Some ps => (0 <? List.length ps)%nat
        | None => false
        end in
      let filtered_candidates := apply_metadata_filters self f in
      match filtered_candidates with
      | [] => NoResults
      | _ =>
          if is_peak_only_search then
            let matches := map peak_only_match filtered_candidates in
            let matches := stable_sort by_name matches in
            Displayed true
              (if (n_matches <? List.length matches)%nat
               then firstn n_matches matches else matches)
          else
            Displayed false
              (search_filtered_candidates filtered_candidates algorithm
                                          n_matches threshold)
      end
  | _, _ => NoData
  end.

End Search.

End App.

(** ** Sample data *)

Definition sample_entry : db_entry :=
  mk_entry [100; 200; 300]%Q [1; 5; 2]%Q [] PeaksMissing "".

Definition quartz_class : Legacy.classification :=
  Legacy.mk_class "Silica" [("CRYSTAL SYSTEM", "trigonal")]%string.
Definition calcite_class : Legacy.classification :=
  Legacy.mk_class "Carbonates" [].

(** The table [load_hey_classification] builds from two rows: each
    mineral under its name and under its cleaned name. *)
Definition sample_taxonomy : Legacy.taxonomy :=
  [("Quartz", quartz_class); ("quartz", quartz_class);
   ("Calcite", calcite_class); ("calcite", calcite_class)]%string.

(** Three points, peaks given as a legacy index list whose second index
    is out of range. *)
Definition entry_bad_index : db_entry :=
  mk_entry [100; 200; 300]%Q [1; 5; 2]%Q [] (PeaksList [PInt 1; PInt 7]) "".
Definition entry_indices : db_entry :=
  mk_entry [100; 200; 300]%Q [1; 5; 2]%Q [] (PeaksList [PInt 1; PNone]) "".
Definition entry_direct : db_entry :=
  mk_entry [100; 200; 300]%Q [1; 5; 2]%Q [] (PeaksList [PFloat 1002; PFloat 40]) "".
Definition entry_dict : db_entry :=
  mk_entry [100; 200; 300]%Q [1; 5; 2]%Q [] (PeaksDict (ArrNumpy [1010]%Q)) "".

Definition peaks_at (ps : list Q) (tol : Q) : App.filters :=
  App.mk_filters (Some ps) (Some tol) None None None None None.

(** A window with a three-point query loaded and two entries stored. *)
Definition sample_app : App.app :=
  App.mk_app (Some [0; 1; 2]%R) (Some [1; 3; 2]%R) (Some [1; 3; 2]%R) (Some [1%nat])
    (<["quartz" := entry_indices]> (<["calcite" := sample_entry]> ∅)).

Definition sample_engine : Legacy.raman_spectra :=
  Legacy.mk_spectra (Some [1; 5; 2; 7; 3]%Q) (Some [100; 200; 300; 400; 500]%Q)
    None None
    (<["quartz" := sample_entry]> (<["calcite" := sample_entry]> ∅)) [] ∅.

(* ================================================================== *)
(* PROPERTIES *)
(* ================================================================== *)

(** ** The legacy database *)

Section DatabaseRemoval.

Import Legacy.

Lemma save_database_keeps_database (io_ok : bool) (self : raman_spectra) :
  database (save_database io_ok self).2 = database self.
Proof. unfold save_database. destruct io_ok; reflexivity. Qed.

(** C10. [remove_from_database] on a name that is not a key returns
    [False] and changes nothing (the mapping, and in fact the whole
    state, is the one given); on a name that is a key it returns [True],
    the name is no longer a key, and every other name maps to what it
    mapped to before, so exactly that entry is gone. *)
Theorem remove_from_database_frame
  (io_ok : bool) (self : raman_spectra) (name : string) :
  let r := remove_from_database io_ok self name in
  (database self !! name = None ->
     r = (false, self)) /\
  (is_Some (database self !! name) ->
     r.1 = true /\
     database r.2 = delete name (database self) /\
     database r.2 !! name = None /\
     (forall other : string,
        other <> name -> database r.2 !! other = database self !! other) /\
     dom (database r.2) = dom (database self) ∖ {[ name ]}).
Proof.
  cbv zeta. unfold remove_from_database. split.
  - intros Hnone. rewrite Hnone. reflexivity.
  - intros [e He]. rewrite He. cbn [fst snd].
    rewrite save_database_keeps_database. cbn [database].
    split; [reflexivity|]. split; [reflexivity|].
    split; [apply lookup_delete_eq|].
    split; [intros other Hne; apply lookup_delete_ne; congruence|].
    apply dom_delete_L.
Qed.

End DatabaseRemoval.

Lemma remove_from_database_frame_witness :
  Legacy.remove_from_database true sample_engine "gypsum" = (false, sample_engine) /\
  (Legacy.remove_from_database true sample_engine "quartz").1 = true /\
  Legacy.database (Legacy.remove_from_database true sample_engine "quartz").2 !! "quartz" = None /\
  Legacy.database (Legacy.remove_from_database true sample_engine "quartz").2 !! "calcite"
  = Some sample_entry.
Proof.
  destruct (remove_from_database_frame true sample_engine "gypsum") as [Hout _].
  destruct (remove_from_database_frame true sample_engine "quartz") as [_ Hin].
  split; [apply Hout; reflexivity|].
  destruct Hin as (Ht & _ & Hgone & Hothers & _); [eexists; reflexivity|].
  split; [exact Ht|]. split; [exact Hgone|].
  rewrite Hothers; [reflexivity | discriminate].
Defined.

(** ** Baseline estimation and background subtraction *)

Section Baseline.

Import Legacy.
Local Open Scope Q_scope.





Lemma als_loop_unbound (G : list (list Q)) (y : list Q) (lam p : Q) (w : list Q) :
  als_loop 0 G y lam p w None = Py.Ok None.
Proof. reflexivity. Qed.




End Baseline.


(** ** Parameter handling of the ALS estimator *)

Section BaselineParameters.

Import Legacy.
Local Open Scope Q_scope.



End BaselineParameters.



(** ** Mineral name resolution *)

Section ResolverFacts.

Import Legacy.
Local Open Scope Q_scope.
Variable ratio : string -> string -> Q.

(** What the fuzzy loop returns: either the candidate it was entered
    with, no key having beaten it, or a key of the table that passed the
    threshold and whose ratio no other key exceeds. *)
Lemma fuzzy_scan_best (c : string) (threshold : Q) (t : taxonomy) :
  forall best best_score,
    (fuzzy_scan ratio t c threshold best best_score = best /\
     forall k md, In (k, md) t ->
       ratio c (PyStr.lower k) <= best_score \/ ratio c (PyStr.lower k) < threshold)
    \/
    (exists k md,
       fuzzy_scan ratio t c threshold best best_score = Some (k, md) /\
       In (k, md) t /\
       threshold <= ratio c (PyStr.lower k) /\
       best_score < ratio c (PyStr.lower k) /\
       forall k' md', In (k', md') t ->
         ratio c (PyStr.lower k') <= ratio c (PyStr.lower k)).
Proof.
  induction t as [|[k0 md0] t IH]; intros best best_score; cbn [fuzzy_scan].
  - left. split; [reflexivity|]. intros k md [].
  - set (ra := ratio c (PyStr.lower k0)).
    destruct (Qle_bool ra best_score) eqn:Hb; cbn [negb andb].
    + apply Qle_bool_iff in Hb.
      destruct (IH best best_score) as [[Heq Hall]|(k & md & Heq & Hin & Hth & Hgt & Hmax)].
      * left. split; [exact Heq|].
        intros k md [[= <- <-]|Hin]; [left; exact Hb | eauto].
      * right. exists k, md. repeat split; auto; [right; exact Hin|].
        intros k' md' [[= <- <-]|Hin']; [fold ra; lra | eauto].
    + assert (Hlt : best_score < ra).
      { apply Qnot_le_lt. intros H. apply Qle_bool_iff in H. congruence. }
      destruct (Qle_bool threshold ra) eqn:Ht.
      * apply Qle_bool_iff in Ht.
        destruct (IH (Some (k0, md0)) ra)
          as [[Heq Hall]|(k & md & Heq & Hin & Hth & Hgt & Hmax)].
        -- right. exists k0, md0. repeat split; auto; [left; reflexivity|].
           intros k' md' [[= <- <-]|Hin']; [fold ra; lra|].
           destruct (Hall _ _ Hin'); fold ra; lra.
        -- right. exists k, md. repeat split; auto; [right; exact Hin | lra |].
           intros k' md' [[= <- <-]|Hin']; [fold ra; lra | eauto].
      * assert (Hlt' : ra < threshold).
        { apply Qnot_le_lt. intros H. apply Qle_bool_iff in H. congruence. }
        destruct (IH best best_score) as [[Heq Hall]|(k & md & Heq & Hin & Hth & Hgt & Hmax)].
        -- left. split; [exact Heq|].
           intros k md [[= <- <-]|Hin]; [right; exact Hlt' | eauto].
        -- right. exists k, md. repeat split; auto; [right; exact Hin|].
           intros k' md' [[= <- <-]|Hin']; [fold ra; lra | eauto].
Qed.

Lemma stage_fuzzy_sound (t : taxonomy) (name : string) (threshold : Q)
  (k : string) (md : classification) :
  stage_fuzzy ratio t name threshold = Some (k, md) ->
  In (k, md) t /\
  threshold <= ratio (_clean_mineral_name name) (PyStr.lower k) /\
  forall k' md', In (k', md') t ->
    ratio (_clean_mineral_name name) (PyStr.lower k')
    <= ratio (_clean_mineral_name name) (PyStr.lower k).
Proof.
  unfold stage_fuzzy.
  destruct (fuzzy_scan_best (_clean_mineral_name name) threshold t None 0)
    as [[Heq _]|(k1 & md1 & Heq & Hin & Hth & _ & Hmax)]; rewrite Heq.
  - discriminate.
  - destruct (String.eqb k1 EmptyString); [discriminate|].
    intros [= <- <-]. auto.
Qed.

Lemma match_mineral_name_stages (t : taxonomy) (name : string) (threshold : Q) :
  name <> EmptyString -> t <> [] -> _clean_mineral_name name <> EmptyString ->
  match_mineral_name ratio t name threshold = resolve_by_stages ratio t name threshold.
Proof.
  intros Hn Ht Hc. unfold match_mineral_name, resolve_by_stages.
  apply String.eqb_neq in Hn, Hc. rewrite Hn, Hc.
  destruct t as [|e t']; [congruence|]. set (tt := e :: t').
  unfold stage_cleaned, stage_substring, stage_fuzzy, stage_exact. cbn [first_hit].
  destruct (tax_lookup tt name); [reflexivity|].
  destruct (tax_lookup tt (_clean_mineral_name name)); [reflexivity|].
  destruct (substring_scan tt (_clean_mineral_name name)); [reflexivity|].
  destruct (fuzzy_scan _ _ _ _ _ _) as [[k md]|]; [|reflexivity].
  destruct (String.eqb k EmptyString); reflexivity.
Qed.

(** C5, as the code has it.  Two guards come before every lookup stage:
    an empty name or an empty table, and a name whose cleaned form is
    empty, give no match.  Past the guards the resolver is the chain
    exact match, exact match on the cleaned name, containment of the
    cleaned name in a lower-cased key (first key in table order), fuzzy
    match, and the first stage that hits decides: so an exact match wins
    whatever the fuzzy stage would say, and no hit at any stage gives no
    match.  A fuzzy hit is a key of the table whose ratio with the
    cleaned name is at least the threshold and is exceeded by no other
    key's.  "Quartz-type" and "quartz" clean to the same key. *)
Theorem match_mineral_name_precedence
  (t : taxonomy) (name : string) (threshold : Q) :
  (name = EmptyString \/ t = [] \/ _clean_mineral_name name = EmptyString ->
     match_mineral_name ratio t name threshold = None) /\
  (name <> EmptyString -> t <> [] -> _clean_mineral_name name <> EmptyString ->
     match_mineral_name ratio t name threshold
     = resolve_by_stages ratio t name threshold /\
     forall md, tax_lookup t name = Some md ->
       match_mineral_name ratio t name threshold = Some (name, md)) /\
  (stage_exact t name = None -> stage_cleaned t name = None ->
   stage_substring t name = None -> stage_fuzzy ratio t name threshold = None ->
     match_mineral_name ratio t name threshold = None) /\
  (forall k md, stage_fuzzy ratio t name threshold = Some (k, md) ->
     In (k, md) t /\
     threshold <= ratio (_clean_mineral_name name) (PyStr.lower k) /\
     forall k' md', In (k', md') t ->
       ratio (_clean_mineral_name name) (PyStr.lower k')
       <= ratio (_clean_mineral_name name) (PyStr.lower k)) /\
  _clean_mineral_name "Quartz-type" = _clean_mineral_name "quartz".
Proof.
  assert (Hguard : name = EmptyString \/ t = [] \/ _clean_mineral_name name = EmptyString ->
                   match_mineral_name ratio t name threshold = None).
  { unfold match_mineral_name. intros [->|[->|Hc]].
    - reflexivity.
    - destruct (String.eqb name EmptyString); reflexivity.
    - rewrite Hc. cbn. destruct (String.eqb name EmptyString), t; reflexivity. }
  split; [exact Hguard|]. split; [|split; [|split]].
  - intros Hn Ht Hc. split; [apply match_mineral_name_stages; assumption|].
    intros md Hmd. rewrite match_mineral_name_stages by assumption.
    unfold resolve_by_stages, stage_exact. rewrite Hmd. reflexivity.
  - intros H1 H2 H3 H4.
    destruct (String.eqb name EmptyString) eqn:Hn.
    { apply Hguard. left. apply String.eqb_eq, Hn. }
    destruct t as [|e t'] eqn:Ht.
    { apply Hguard. right. left. reflexivity. }
    destruct (String.eqb (_clean_mineral_name name) EmptyString) eqn:Hc.
    { apply Hguard. right. right. apply String.eqb_eq, Hc. }
    rewrite match_mineral_name_stages.
    + unfold resolve_by_stages. rewrite H1, H2, H3, H4. reflexivity.
    + apply String.eqb_neq, Hn.
    + discriminate.
    + apply String.eqb_neq, Hc.
  - intros k md. apply stage_fuzzy_sound.
  - reflexivity.
Qed.

End ResolverFacts.

(** The claim as the specification states it fails on a name whose
    cleaned form is empty: the table has the name as a key, so the exact
    stage hits, and the resolver still answers "no match". *)
Lemma match_mineral_name_guard_precedes_exact :
  Legacy.match_mineral_name Legacy.difflib_ratio
    [("-type"%string, quartz_class)] "-type" Legacy.default_threshold = None /\
  Legacy.stage_exact [("-type"%string, quartz_class)] "-type"
  = Some ("-type"%string, quartz_class) /\
  Legacy.resolve_by_stages Legacy.difflib_ratio
    [("-type"%string, quartz_class)] "-type" Legacy.default_threshold
  = Some ("-type"%string, quartz_class).
Proof. repeat split. Qed.

Lemma match_mineral_name_precedence_witness :
  (* exact beats fuzzy *)
  Legacy.match_mineral_name Legacy.difflib_ratio sample_taxonomy "Quartz"
    Legacy.default_threshold = Some ("Quartz"%string, quartz_class) /\
  (* a misspelling is resolved by the stages, here the fuzzy one *)
  Legacy.match_mineral_name Legacy.difflib_ratio sample_taxonomy "quarts"
    Legacy.default_threshold
  = Legacy.resolve_by_stages Legacy.difflib_ratio sample_taxonomy "quarts"
      Legacy.default_threshold /\
  (Legacy.default_threshold
   <= Legacy.difflib_ratio (Legacy._clean_mineral_name "quarts") (PyStr.lower "Quartz"))%Q /\
  (* below the threshold: no match *)
  Legacy.match_mineral_name Legacy.difflib_ratio sample_taxonomy "kwarts"
    Legacy.default_threshold = None /\
  (* an empty name *)
  Legacy.match_mineral_name Legacy.difflib_ratio sample_taxonomy ""
    Legacy.default_threshold = None.
Proof.
  pose proof (match_mineral_name_precedence Legacy.difflib_ratio sample_taxonomy
                "Quartz" Legacy.default_threshold) as (_ & Hq & _).
  pose proof (match_mineral_name_precedence Legacy.difflib_ratio sample_taxonomy
                "quarts" Legacy.default_threshold) as (_ & Hs & _ & Hf & _).
  pose proof (match_mineral_name_precedence Legacy.difflib_ratio sample_taxonomy
                "kwarts" Legacy.default_threshold) as (_ & _ & Hk & _).
  pose proof (match_mineral_name_precedence Legacy.difflib_ratio sample_taxonomy
                "" Legacy.default_threshold) as (He & _).
  split.
  { apply Hq; [discriminate | discriminate | vm_compute; discriminate | reflexivity]. }
  split.
  { apply Hs; [discriminate | discriminate | vm_compute; discriminate]. }
  split.
  { apply (Hf "Quartz"%string quartz_class). vm_compute. reflexivity. }
  split.
  { apply Hk; vm_compute; reflexivity. }
  apply He. left. reflexivity.
Defined.

(** ** The peak-position filter *)

Section PeakFilter.

Import App.
Local Open Scope Q_scope.

Lemma peak_found_iff (tolerance : Q) (spectrum_peaks : list Q) (required_peak : Q) :
  peak_found tolerance spectrum_peaks required_peak = true <->
  Exists (fun peak => Qabs (peak - required_peak) <= tolerance) spectrum_peaks.
Proof.
  unfold peak_found. rewrite existsb_exists, List.Exists_exists.
  split; intros (p & Hin & Hp); exists p; (split; [exact Hin|]);
    apply Qle_bool_iff; exact Hp.
Qed.

Lemma py_int_in_range (n : nat) (p : pyval) :
  looks_like_index n p = true ->
  exists i, py_int p = Some i /\ (0 <= i < Z.of_nat n)%Z.
Proof.
  destruct p as [|z|q|]; cbn; try discriminate.
  - intros H. apply andb_true_iff in H as [H1 H2]. exists z. split; [reflexivity|lia].
  - intros H. apply andb_true_iff in H as [H1 H2].
    apply Qle_bool_iff in H1. apply negb_true_iff in H2.
    assert (H3 : q < inject_Z (Z.of_nat n)).
    { apply Qnot_le_lt. intros H. apply Qle_bool_iff in H. congruence. }
    eexists. split; [reflexivity|].
    destruct q as [a d]. unfold Qle, Qlt in *. cbn in *.
    rewrite Z.quot_div_nonneg by lia. split.
    + apply Z.div_pos; lia.
    + apply Z.div_lt_upper_bound; lia.
Qed.

(** On a list that passes the index test, the legacy branch converts
    every element that is not [None]: nothing is skipped. *)
Lemma indices_to_wavenumbers_all (wn : list Q) (l : list pyval) :
  all_look_like_indices (List.length wn) l = true ->
  indices_to_wavenumbers wn l = Some (spec_index_peaks wn l) /\
  List.length (spec_index_peaks wn l)
  = List.length (List.filter (fun p => match p with PNone => false | _ => true end) l).
Proof.
  unfold all_look_like_indices.
  induction l as [|p l IH]; cbn [forallb]; [intros _; split; reflexivity|].
  intros H. apply andb_true_iff in H as [Hp Hl]. destruct (IH Hl) as [IH1 IH2].
  destruct p as [|z|q|] eqn:Ep; [cbn; auto | | | discriminate].
  all: destruct (py_int_in_range _ _ Hp) as (i & Hi & Hr).
  all: assert (Hw : exists w, wn !! Z.to_nat i = Some w)
         by (apply lookup_lt_is_Some; lia).
  all: destruct Hw as [w Hw].
  all: assert (Hb : ((0 <=? i)%Z && (i <? Z.of_nat (List.length wn))%Z) = true)
         by (apply andb_true_iff; split; lia).
  all: assert (Hix : index_wavenumber wn p = Some w)
         by (rewrite Ep; unfold index_wavenumber; rewrite Hi;
             replace (0 <=? i)%Z with true by lia; exact Hw).
  all: rewrite Ep in Hix.
  all: cbn [indices_to_wavenumbers spec_index_peaks List.filter List.length];
       rewrite Hi, Hb, Hw, IH1, Hix; cbn; split; auto.
Qed.

Lemma passes_peak_filter_iff (data : db_entry) (f : filters) (required : list Q) :
  peak_positions f = Some required ->
  passes_peak_filter data f = true <->
  exists usable, valid_spectrum_peaks data = Some usable /\
    Forall (fun r =>
              Exists (fun peak =>
                        Qabs (peak - r)
                        <= match peak_tolerance f with
                           | Some t => t
                           | None => default_tolerance
                           end) usable) required.
Proof.
  intros Hf. unfold passes_peak_filter. rewrite Hf.
  destruct (valid_spectrum_peaks data) as [usable|].
  - rewrite forallb_forall. split.
    + intros H. exists usable. split; [reflexivity|].
      apply List.Forall_forall. intros r Hr. apply peak_found_iff, H, Hr.
    + intros (u & [= <-] & H) r Hr.
      apply peak_found_iff. revert r Hr. apply List.Forall_forall, H.
  - split; [discriminate|]. intros (u & Hu & _). discriminate.
Qed.

Lemma only_peak_filter (name : string) (data : db_entry) (f : filters) :
  chemical_family f = None -> hey_classification f = None ->
  only_elements f = None -> required_elements f = None -> exclude_elements f = None ->
  spectrum_passes_filters name data f = passes_peak_filter data f.
Proof.
  intros H1 H2 H3 H4 H5. unfold spectrum_passes_filters, passes_element_filters.
  rewrite H1, H2, H3, H4, H5. cbn. rewrite !andb_true_r. reflexivity.
Qed.

(** C3, as the code has it.  Under a [peak_positions] filter an entry
    passes the peak filter exactly when it has usable peak data and every
    required wavenumber is within the tolerance of some usable peak;
    with no other filter set that is the whole filter; an entry without
    usable peak data fails.  The usable peaks are: the non-empty numpy
    array of a peaks dict; for a non-empty list, when the entry has
    wavenumbers and every element other than [None] is a number in
    [0, len(wavenumbers)), the wavenumbers at those indices, none being
    skipped; for any other non-empty list, its numbers above 50, read as
    wavenumbers.  Every other shape is no usable peak data. *)
Theorem peak_filter_semantics
  (name : string) (data : db_entry) (f : filters) (required : list Q) :
  peak_positions f = Some required ->
  (passes_peak_filter data f = true <->
   exists usable, valid_spectrum_peaks data = Some usable /\
     Forall (fun r =>
               Exists (fun peak =>
                         Qabs (peak - r)
                         <= match peak_tolerance f with
                            | Some t => t
                            | None => default_tolerance
                            end) usable) required) /\
  (chemical_family f = None -> hey_classification f = None ->
   only_elements f = None -> required_elements f = None -> exclude_elements f = None ->
     spectrum_passes_filters name data f = passes_peak_filter data f) /\
  (valid_spectrum_peaks data = None -> spectrum_passes_filters name data f = false) /\
  match peaks data with
  | PeaksDict (ArrNumpy (x :: a)) => valid_spectrum_peaks data = Some (x :: a)
  | PeaksList (p :: l) =>
      if (0 <? List.length (wavenumbers data))%nat
         && all_look_like_indices (List.length (wavenumbers data)) (p :: l)
      then valid_spectrum_peaks data
           = Some (spec_index_peaks (wavenumbers data) (p :: l)) /\
           List.length (spec_index_peaks (wavenumbers data) (p :: l))
           = List.length (List.filter (fun v => match v with PNone => false | _ => true end)
                                      (p :: l))
      else valid_spectrum_peaks data = Some (direct_wavenumbers (p :: l))
  | _ => valid_spectrum_peaks data = None
  end.
Proof.
  intros Hf. split; [apply passes_peak_filter_iff, Hf|].
  split; [apply only_peak_filter|]. split.
  - intros Hv. unfold spectrum_passes_filters, passes_peak_filter.
    rewrite Hf, Hv. reflexivity.
  - unfold valid_spectrum_peaks.
    destruct (peaks data) as [|[|[|x a]|l]|[|p l]|]; try reflexivity.
    destruct ((0 <? List.length (wavenumbers data))%nat) eqn:Hn; cbn [andb]; [|reflexivity].
    destruct (all_look_like_indices _ _) eqn:Ha; [|reflexivity].
    apply indices_to_wavenumbers_all, Ha.
Qed.

End PeakFilter.

(** The claim as the specification states it fails on a legacy index
    list with an index out of range: the code then reads the whole list
    as wavenumbers, finds none above 50 and rejects the entry, where
    converting index 1 and skipping index 7 would give a peak at 200. *)
Lemma peak_filter_out_of_range_index :
  App.valid_spectrum_peaks entry_bad_index = Some [] /\
  App.spectrum_passes_filters "e" entry_bad_index (peaks_at [200]%Q 10%Q) = false /\
  App.spec_index_peaks (wavenumbers entry_bad_index) [PInt 1; PInt 7] = [200]%Q /\
  forallb (App.peak_found 10%Q [200]%Q) [200]%Q = true.
Proof. repeat split. Qed.

Lemma peak_filter_semantics_witness :
  (* a legacy index list, every index in range *)
  App.spectrum_passes_filters "e" entry_indices (peaks_at [200]%Q 10%Q) = true /\
  App.valid_spectrum_peaks entry_indices = Some [200]%Q /\
  (* required 1000 with tolerance 5: a peak at 1002 passes, one at 1010 fails *)
  App.spectrum_passes_filters "e" entry_direct (peaks_at [1000]%Q 5%Q) = true /\
  App.spectrum_passes_filters "e" entry_dict (peaks_at [1000]%Q 5%Q) = false /\
  (* no peak data *)
  App.spectrum_passes_filters "e" sample_entry (peaks_at [200]%Q 10%Q) = false.
Proof.
  pose proof (peak_filter_semantics "e" entry_indices (peaks_at [200]%Q 10%Q)
                [200]%Q eq_refl) as (Hiff & Honly & _ & Hshape).
  pose proof (peak_filter_semantics "e" entry_direct (peaks_at [1000]%Q 5%Q)
                [1000]%Q eq_refl) as (Hiff2 & Honly2 & _).
  pose proof (peak_filter_semantics "e" sample_entry (peaks_at [200]%Q 10%Q)
                [200]%Q eq_refl) as (_ & _ & Hnone & _).
  split.
  { rewrite Honly by reflexivity. apply Hiff. exists [200]%Q.
    split; [reflexivity|]. repeat constructor. cbn. vm_compute. discriminate. }
  split; [exact (proj1 Hshape)|].
  split.
  { rewrite Honly2 by reflexivity. apply Hiff2. exists [1002]%Q.
    split; [reflexivity|]. repeat constructor. cbn. vm_compute. discriminate. }
  split; [reflexivity|].
  apply Hnone. reflexivity.
Defined.

(** ** Peak-only search *)

Section Sorting.

Context {A : Type} (le : A -> A -> bool).

Lemma insert_sorted_perm (x : A) (l : list A) :
  Permutation (App.insert_sorted le x l) (x :: l).
Proof.
  induction l as [|y l IH]; cbn; [reflexivity|].
  destruct (le x y); [reflexivity|].
  rewrite IH. apply perm_swap.
Qed.

Lemma stable_sort_perm (l : list A) : Permutation (App.stable_sort le l) l.
Proof.
  induction l as [|x l IH]; cbn; [reflexivity|].
  rewrite insert_sorted_perm. constructor. exact IH.
Qed.

Hypothesis le_total : forall x y, le x y = true \/ le y x = true.

Lemma insert_sorted_sorted (x : A) (l : list A) :
  Sorted (fun a b => le a b = true) l ->
  Sorted (fun a b => le a b = true) (App.insert_sorted le x l).
Proof.
  induction l as [|y l IH]; cbn; intros Hs.
  - repeat constructor.
  - destruct (le x y) eqn:E.
    + constructor; [exact Hs | constructor; exact E].
    + apply Sorted_inv in Hs as [Hs Hhd]. constructor; [apply IH, Hs|].
      destruct l as [|z l]; cbn.
      * constructor. destruct (le_total x y); congruence.
      * destruct (le x z); constructor.
        -- destruct (le_total x y); congruence.
        -- inversion Hhd; assumption.
Qed.

Lemma stable_sort_sorted (l : list A) :
  Sorted (fun a b => le a b = true) (App.stable_sort le l).
Proof.
  induction l as [|x l IH]; cbn; [constructor|]. apply insert_sorted_sorted, IH.
Qed.

End Sorting.

Lemma string_compare_le_trans (a : string) :
  forall b c : string,
    String.compare a b <> Gt -> String.compare b c <> Gt -> String.compare a c <> Gt.
Proof.
  induction a as [|x a IH]; intros [|y b] [|z c]; cbn; try congruence.
  unfold Ascii.compare.
  destruct (N.compare_spec (N_of_ascii x) (N_of_ascii y)) as [Hxy|Hxy|Hxy];
    destruct (N.compare_spec (N_of_ascii y) (N_of_ascii z)) as [Hyz|Hyz|Hyz];
    destruct (N.compare_spec (N_of_ascii x) (N_of_ascii z)) as [Hxz|Hxz|Hxz];
    try congruence; try lia.
  apply IH.
Qed.

Lemma string_leb_trans (a b c : string) :
  String.leb a b = true -> String.leb b c = true -> String.leb a c = true.
Proof.
  unfold String.leb. intros H1 H2.
  pose proof (string_compare_le_trans a b c) as H.
  destruct (String.compare a b), (String.compare b c), (String.compare a c);
    try discriminate; try reflexivity; exfalso; apply H; congruence.
Qed.

Lemma firstn_or_all {A : Type} (n : nat) (l : list A) :
  (if (n <? List.length l)%nat then firstn n l else l) = firstn n l.
Proof.
  destruct (n <? List.length l)%nat eqn:E; [reflexivity|].
  symmetry. apply firstn_all2. apply Nat.ltb_ge, E.
Qed.

Section PeakOnlySearch.

Import App.

Lemma NoDup_fst_filter {K V : Type} (p : K * V -> bool) (l : list (K * V)) :
  NoDup (map fst l) -> NoDup (map fst (List.filter p l)).
Proof.
  induction l as [|x l IH]; cbn; [auto|].
  intros H. apply NoDup_cons in H as [Hx Hl].
  destruct (p x); cbn; [|auto].
  apply NoDup_cons. split; [|auto].
  intros Hin. apply Hx. apply list_elem_of_In. apply list_elem_of_In in Hin.
  apply in_map_iff in Hin as (y & Hy & Hin).
  apply in_map_iff. exists y. split; [exact Hy|].
  apply filter_In in Hin. tauto.
Qed.

Lemma map_fst_fmap {K V : Type} (l : list (K * V)) : map fst l = l.*1.
Proof. induction l as [|x l IH]; cbn; [reflexivity|]. f_equal. Qed.

(** C2. With a spectrum loaded, a non-empty database and a filter dict
    holding [peak_positions] (with its tolerance) and nothing else, the
    advanced search is a peak-only search.  When no entry passes the peak
    filter it reports that there are no results.  Otherwise it displays,
    in peak-only mode, the first [n_matches] elements of a list that
    holds exactly one match per database entry passing the peak filter,
    each with score 1 and the entry's name, metadata and peaks, ordered
    by name (names being unique, strictly so).  Nothing of this depends
    on the scoring capabilities, the algorithm chosen or the threshold:
    no similarity is computed. *)
Theorem peak_only_search
  (fastdtw : option (list R -> list R -> R * list (nat * nat)))
  (find_peaks : list R -> R -> list nat)
  (self : app) (algorithm : string) (n_matches : nat) (threshold : R)
  (f : filters) (ps : list Q) (cw ci : list R) :
  current_wavenumbers self = Some cw ->
  current_intensities self = Some ci ->
  database self <> ∅ ->
  peak_positions f = Some ps -> ps <> [] ->
  chemical_family f = None -> hey_classification f = None ->
  only_elements f = None -> required_elements f = None -> exclude_elements f = None ->
  let passing :=
    List.filter (fun nd => passes_peak_filter nd.2 f) (map_to_list (database self)) in
  (passing = [] ->
     perform_advanced_search fastdtw find_peaks self algorithm n_matches threshold f
     = NoResults) /\
  (passing <> [] ->
     exists full,
       perform_advanced_search fastdtw find_peaks self algorithm n_matches threshold f
       = Displayed true (firstn n_matches full) /\
       Permutation full (map peak_only_match passing) /\
       StronglySorted (fun a b => String.leb (m_name a) (m_name b) = true) full /\
       NoDup (map m_name full) /\
       Forall (fun m => m_score m = 1%R) full /\
       forall m, In m full <->
         exists name data,
           database self !! name = Some data /\
           passes_peak_filter data f = true /\
           m = peak_only_match (name, data)) /\
  (forall fastdtw' find_peaks' algorithm' threshold',
     perform_advanced_search fastdtw' find_peaks' self algorithm' n_matches threshold' f
     = perform_advanced_search fastdtw find_peaks self algorithm n_matches threshold f).
Proof.
  intros Hcw Hci Hdb Hps Hne H1 H2 H3 H4 H5 passing.
  assert (Hfilt : apply_metadata_filters self f = passing).
  { unfold apply_metadata_filters, passing. apply filter_ext.
    intros [name data]. apply only_peak_filter; assumption. }
  assert (Hpeak : (0 <? List.length ps)%nat = true).
  { destruct ps; [congruence | reflexivity]. }
  assert (Hrun : forall fd fp alg thr,
             perform_advanced_search fd fp self alg n_matches thr f
             = match passing with
               | [] => NoResults
               | _ => Displayed true
                        (firstn n_matches
                           (stable_sort by_name (map peak_only_match passing)))
               end).
  { intros fd fp alg thr. unfold perform_advanced_search.
    rewrite Hcw, Hci, Hps, Hpeak, Hfilt.
    destruct (decide (database self = ∅)) as [He|_]; [contradiction|].
    destruct passing; [reflexivity|]. rewrite firstn_or_all. reflexivity. }
  split; [|split].
  - intros Hp. rewrite Hrun, Hp. reflexivity.
  - intros Hp. exists (stable_sort by_name (map peak_only_match passing)).
    pose proof (stable_sort_perm by_name (map peak_only_match passing)) as Hperm.
    split. { rewrite Hrun. destruct passing; [congruence | reflexivity]. }
    split; [exact Hperm|]. split; [|split; [|split]].
    + apply Sorted_StronglySorted.
      * intros a b c. apply string_leb_trans.
      * apply (stable_sort_sorted by_name).
        intros x y. apply String.leb_total.
    + assert (Hp2 : Permutation
                      (map m_name (stable_sort by_name (map peak_only_match passing)))
                      (map fst passing)).
      { rewrite (Permutation_map m_name Hperm), map_map. reflexivity. }
      rewrite Hp2. apply NoDup_fst_filter.
      rewrite map_fst_fmap. apply NoDup_fst_map_to_list.
    + apply List.Forall_forall. intros m Hm.
      eapply Permutation_in in Hm; [|exact Hperm].
      apply in_map_iff in Hm as (nd & <- & _). reflexivity.
    + intros m. split.
      * intros Hm. eapply Permutation_in in Hm; [|exact Hperm].
        apply in_map_iff in Hm as ([name data] & <- & Hin).
        apply filter_In in Hin as [Hin Hpass].
        exists name, data. split; [|split; [exact Hpass | reflexivity]].
        apply elem_of_map_to_list, list_elem_of_In, Hin.
      * intros (name & data & Hl & Hpass & ->).
        eapply Permutation_in; [symmetry; exact Hperm|].
        apply in_map. apply filter_In. split; [|exact Hpass].
        apply list_elem_of_In, elem_of_map_to_list, Hl.
  - intros fd fp alg thr. rewrite !Hrun. reflexivity.
Qed.

End PeakOnlySearch.

Lemma peak_only_search_witness :
  exists full,
    App.perform_advanced_search None (fun _ _ => []) sample_app "DTW" 10 (3 / 10)%R
      (peaks_at [200]%Q 10%Q)
    = App.Displayed true (firstn 10 full) /\
    Forall (fun m => App.m_score m = 1%R) full /\
    In (App.peak_only_match ("quartz"%string, entry_indices)) full.
Proof.
  assert (Hdb : App.database sample_app <> ∅).
  { intros H. apply (f_equal (fun m => m !! "quartz"%string)) in H.
    vm_compute in H. discriminate H. }
  destruct (peak_only_search None (fun _ _ => []) sample_app "DTW" 10 (3 / 10)%R
              (peaks_at [200]%Q 10%Q) [200]%Q [0; 1; 2]%R [1; 3; 2]%R
              eq_refl eq_refl Hdb eq_refl ltac:(discriminate)
              eq_refl eq_refl eq_refl eq_refl eq_refl) as (_ & Hsome & _).
  destruct Hsome as (full & Hrun & _ & _ & _ & Hscore & Hmem).
  { intros Hp. vm_compute in Hp. discriminate Hp. }
  exists full. split; [exact Hrun|]. split; [exact Hscore|].
  apply Hmem. exists "quartz"%string, entry_indices.
  split; [reflexivity|]. split; reflexivity.
Defined.

(** ** Similarity scores *)

Section ScoreRange.

Import App.
Local Open Scope R_scope.

Lemma py_min_Rmin (a b : R) : Np.py_min a b = Rmin a b.
Proof.
  unfold Np.py_min, Rmin. destruct (Rlt_dec b a), (Rle_dec a b); lra.
Qed.

Lemma py_max_Rmax (a b : R) : Np.py_max a b = Rmax a b.
Proof.
  unfold Np.py_max, Rmax. destruct (Rlt_dec a b), (Rle_dec a b); lra.
Qed.

Lemma clip01_range (s : R) : 0 <= Np.clip01 s <= 1.
Proof.
  unfold Np.clip01, Np.py_max, Np.py_min.
  destruct (Rlt_dec s 1); destruct (Rlt_dec 0 _); lra.
Qed.

Lemma clip01_id (s : R) : 0 <= s <= 1 -> Np.clip01 s = s.
Proof.
  intros H. unfold Np.clip01, Np.py_max, Np.py_min.
  destruct (Rlt_dec s 1); destruct (Rlt_dec 0 _); lra.
Qed.

Lemma unit_ok_zero : Np.unit_result (Py.Ok 0).
Proof. cbn. lra. Qed.

Lemma unit_ok_clip (s : R) : Np.unit_result (Py.Ok (Np.clip01 s)).
Proof. cbn. apply clip01_range. Qed.

Lemma unit_bind {A : Type} (r : Py.result A) (k : A -> Py.result R) :
  (forall a, Np.unit_result (k a)) -> Np.unit_result (r ≫= k).
Proof. intros H. destruct r; cbn; [apply H | exact I]. Qed.

Lemma unit_catch (r : Py.result R) : Np.unit_result r -> 0 <= Py.catch r 0 <= 1.
Proof. destruct r; cbn; [auto | lra]. Qed.

Ltac unit_step :=
  first
    [ apply unit_ok_zero
    | apply unit_ok_clip
    | exact I
    | apply unit_bind; intros
    | match goal with
      | |- Np.unit_result (if ?c then _ else _) => destruct c
      | |- Np.unit_result (match ?x with _ => _ end) => destruct x
      | |- Np.unit_result (let '(_, _) := ?x in _) => destruct x
      end ].

Variable fastdtw : option (list R -> list R -> R * list (nat * nat)).
Variable find_peaks : list R -> R -> list nat.
Variable self : app.
Variables db_wavenumbers db_intensities : list R.

Lemma correlation_body_unit :
  Np.unit_result (correlation_body self db_wavenumbers db_intensities).
Proof. unfold correlation_body. repeat unit_step. Qed.

Lemma dtw_body_unit :
  Np.unit_result (dtw_body fastdtw self db_wavenumbers db_intensities).
Proof. unfold dtw_body. repeat unit_step. Qed.

Lemma peak_body_unit :
  Np.unit_result (peak_body find_peaks self db_wavenumbers db_intensities).
Proof. unfold peak_body. repeat unit_step. Qed.

Lemma correlation_score_range :
  0 <= calculate_correlation_score self db_wavenumbers db_intensities <= 1.
Proof. apply unit_catch, correlation_body_unit. Qed.

Lemma dtw_score_range :
  0 <= calculate_dtw_score fastdtw self db_wavenumbers db_intensities <= 1.
Proof.
  unfold calculate_dtw_score, Py.catch_import.
  pose proof dtw_body_unit as H. pose proof correlation_score_range as Hc.
  destruct (dtw_body _ _ _ _) as [v|[]]; cbn in H; auto; lra.
Qed.

End ScoreRange.

(** ** Facts about the numpy operations *)

Section NumpyFacts.

Local Open Scope R_scope.

Lemma fold_left_Rmax_upper (l : list R) :
  forall a, a <= fold_left Rmax l a /\ forall k, In k l -> k <= fold_left Rmax l a.
Proof.
  induction l as [|x l IH]; intros a; cbn.
  - split; [lra | tauto].
  - destruct (IH (Rmax a x)) as [H1 H2]. pose proof (Rmax_l a x). pose proof (Rmax_r a x).
    split; [lra|]. intros k [<-|Hk]; [lra | auto].
Qed.

Lemma fold_left_Rmin_lower (l : list R) :
  forall a, fold_left Rmin l a <= a /\ forall k, In k l -> fold_left Rmin l a <= k.
Proof.
  induction l as [|x l IH]; intros a; cbn.
  - split; [lra | tauto].
  - destruct (IH (Rmin a x)) as [H1 H2]. pose proof (Rmin_l a x). pose proof (Rmin_r a x).
    split; [lra|]. intros k [<-|Hk]; [lra | auto].
Qed.

Lemma amax_max_of (l : list R) : l <> [] -> Np.amax l = Py.Ok (Np.max_of l).
Proof. destruct l; [congruence | reflexivity]. Qed.

Lemma amin_min_of (l : list R) : l <> [] -> Np.amin l = Py.Ok (Np.min_of l).
Proof. destruct l; [congruence | reflexivity]. Qed.

Lemma max_of_upper (l : list R) (k : R) : In k l -> k <= Np.max_of l.
Proof.
  destruct l as [|x l]; [intros []|]. unfold Np.max_of. cbn [hd tail].
  destruct (fold_left_Rmax_upper l x) as [H1 H2]. intros [<-|Hk]; auto.
Qed.

Lemma min_of_lower (l : list R) (k : R) : In k l -> Np.min_of l <= k.
Proof.
  destruct l as [|x l]; [intros []|]. unfold Np.min_of. cbn [hd tail].
  destruct (fold_left_Rmin_lower l x) as [H1 H2]. intros [<-|Hk]; auto.
Qed.

Lemma last_cons (l : list R) :
  forall a d d', List.last (a :: l) d = List.last l a /\ List.last (a :: l) d = List.last (a :: l) d'.
Proof.
  induction l as [|b l IH]; intros a d d'; [split; reflexivity|].
  destruct (IH b d d') as [H1 H2]. destruct (IH b a d) as [H3 H4].
  split.
  - change (List.last (b :: l) d = List.last (b :: l) a). rewrite H1, H3. reflexivity.
  - change (List.last (b :: l) d = List.last (b :: l) d'). exact H2.
Qed.

Lemma interp_from_beyond (x : R) (xs : list R) :
  forall ys x0 y0,
    List.length xs = List.length ys ->
    (forall k, In k xs -> k <= x) ->
    Np.interp_from x x0 y0 xs ys = List.last ys y0.
Proof.
  induction xs as [|x1 xs IH]; intros [|y1 ys] x0 y0 Hlen Hall; try discriminate.
  - reflexivity.
  - cbn [Np.interp_from]. destruct (Rle_dec x1 x) as [_|Hn].
    + rewrite IH; [| cbn in Hlen; lia | intros k Hk; apply Hall; right; exact Hk].
      symmetry. apply last_cons. exact 0.
    + exfalso. apply Hn, Hall. left. reflexivity.
Qed.

(** At or beyond the last sample point, interpolation gives the last
    sample value. *)
Lemma interp_at_beyond (xp fp : list R) (x : R) :
  xp <> [] -> List.length xp = List.length fp ->
  (forall k, In k xp -> k <= x) ->
  Np.interp_at xp fp x = List.last fp 0.
Proof.
  destruct xp as [|x0 xs]; [congruence|]. destruct fp as [|y0 ys]; [discriminate|].
  intros _ Hlen Hall. cbn [Np.interp_at].
  destruct (Rlt_dec x x0) as [Hlt|_].
  - exfalso. specialize (Hall x0 (or_introl eq_refl)). lra.
  - rewrite interp_from_beyond; [| cbn in Hlen; lia | intros k Hk; apply Hall; right; exact Hk].
    symmetry. apply last_cons. exact 0.
Qed.

(** A grid asked from [lo] down to [hi <= lo] stays at or above [hi]. *)
Lemma linspace_lower (lo hi : R) (n : nat) (x : R) :
  hi <= lo -> In x (Np.linspace lo hi n) -> hi <= x.
Proof.
  intros Hle. destruct n as [|[|m]]; cbn [Np.linspace].
  - intros [].
  - intros [<-|[]]. exact Hle.
  - intros Hin. apply in_app_or in Hin as [Hin|[<-|[]]]; [|lra].
    apply in_map_iff in Hin as (i & <- & Hi). apply in_seq in Hi.
    assert (H0 : 0 < INR (S m)) by (apply lt_0_INR; lia).
    assert (H1 : 0 <= INR i) by apply pos_INR.
    assert (H2 : INR i <= INR (S m)) by (apply le_INR; lia).
    assert (H3 : INR i * ((hi - lo) / INR (S m)) = (hi - lo) * (INR i / INR (S m)))
      by (field; lra).
    rewrite H3.
    assert (H4 : 0 <= INR i / INR (S m) <= 1).
    { split.
      - apply Rmult_le_pos; [exact H1 | left; apply Rinv_0_lt_compat, H0].
      - apply (Rmult_le_reg_r (INR (S m))); [exact H0|].
        unfold Rdiv. rewrite Rmult_assoc, Rinv_l by lra. lra. }
    nra.
Qed.

Lemma linspace_length (lo hi : R) (n : nat) : List.length (Np.linspace lo hi n) = n.
Proof.
  destruct n as [|[|m]]; cbn [Np.linspace]; try reflexivity.
  rewrite length_app, length_map, length_seq. cbn. lia.
Qed.

Lemma sum_const (l : list R) (c : R) :
  (forall x, In x l -> x = c) -> Np.sum l = INR (List.length l) * c.
Proof.
  induction l as [|x l IH]; intros H.
  - cbn. lra.
  - change (Np.sum (x :: l)) with (x + Np.sum l).
    rewrite IH by (intros y Hy; apply H; right; exact Hy).
    rewrite (H x (or_introl eq_refl)).
    replace (INR (List.length (c :: l))) with (INR (List.length l) + 1)
      by (symmetry; apply S_INR).
    lra.
Qed.

Lemma mean_const (l : list R) (c : R) :
  l <> [] -> (forall x, In x l -> x = c) -> Np.mean l = c.
Proof.
  intros Hne H. unfold Np.mean. rewrite (sum_const l c H).
  assert (0 < INR (List.length l)).
  { apply lt_0_INR. destruct l; [congruence | cbn; lia]. }
  field. lra.
Qed.

Lemma sum_nonneg (l : list R) : (forall x, In x l -> 0 <= x) -> 0 <= Np.sum l.
Proof.
  induction l as [|x l IH]; intros H; cbn; [lra|].
  specialize (H x (or_introl eq_refl)) as Hx.
  assert (0 <= Np.sum l) by (apply IH; intros y Hy; apply H; right; exact Hy).
  unfold Np.sum in *. lra.
Qed.

Lemma var_nonneg (l : list R) : 0 <= Np.var l.
Proof.
  unfold Np.var, Np.mean at 1. rewrite length_map.
  set (s := Np.sum _).
  assert (Hs : 0 <= s).
  { apply sum_nonneg. intros x Hx. apply in_map_iff in Hx as (y & <- & _).
    apply Rle_0_sqr. }
  destruct l as [|a l].
  - cbn. unfold Rdiv. rewrite Rinv_0. lra.
  - apply Rmult_le_pos; [exact Hs|]. left. apply Rinv_0_lt_compat, lt_0_INR. cbn. lia.
Qed.

(** A series whose values are all the same has no variance. *)
Lemma var_const (l : list R) (c : R) : (forall x, In x l -> x = c) -> Np.var l = 0.
Proof.
  intros H. destruct l as [|a l].
  - unfold Np.var, Np.mean. cbn. lra.
  - assert (Hm : Np.mean (a :: l) = c) by (apply mean_const; [discriminate | exact H]).
    unfold Np.var. rewrite Hm. unfold Np.mean.
    rewrite (sum_const _ 0).
    + unfold Rdiv. lra.
    + intros x Hx. apply in_map_iff in Hx as (y & <- & Hy). rewrite (H y Hy). lra.
Qed.

Lemma std_zero_iff (l : list R) : Np.std l = 0 <-> Np.var l = 0.
Proof.
  unfold Np.std. split.
  - apply sqrt_eq_0, var_nonneg.
  - intros ->. apply sqrt_0.
Qed.

End NumpyFacts.

(** ** The DTW fallback *)

(** C7. When the import of the DTW implementation fails, the DTW score
    is the correlation score of the same inputs, and the combined score,
    [0.3 * correlation + 0.7 * DTW] clipped, is then the correlation
    score too: nothing is raised and nothing else enters the results. *)
Theorem dtw_unavailable_falls_back
  (self : App.app) (db_wavenumbers db_intensities : list R) :
  App.calculate_dtw_score None self db_wavenumbers db_intensities
  = App.calculate_correlation_score self db_wavenumbers db_intensities /\
  App.calculate_combined_score None self db_wavenumbers db_intensities
  = Np.clip01 (3 / 10 * App.calculate_correlation_score self db_wavenumbers db_intensities
               + 7 / 10 * App.calculate_correlation_score self db_wavenumbers db_intensities)%R /\
  App.calculate_combined_score None self db_wavenumbers db_intensities
  = App.calculate_correlation_score self db_wavenumbers db_intensities.
Proof.
  assert (Hd : App.calculate_dtw_score None self db_wavenumbers db_intensities
               = App.calculate_correlation_score self db_wavenumbers db_intensities)
    by reflexivity.
  split; [exact Hd|]. unfold App.calculate_combined_score. rewrite Hd.
  split; [reflexivity|].
  pose proof (correlation_score_range self db_wavenumbers db_intensities) as Hc.
  rewrite <- (clip01_id _ Hc) at 3. f_equal. lra.
Qed.

(** ** The correlation score *)

Section Correlation.

Import App.
Local Open Scope R_scope.

Variable self : app.
Variables qw qi dw di : list R.
Hypothesis Hcw : current_wavenumbers self = Some qw.
Hypothesis Hpi : processed_intensities self = Some qi.
Hypothesis Hqw : qw <> [].
Hypothesis Hqlen : List.length qw = List.length qi.
Hypothesis Hdw : dw <> [].
Hypothesis Hdlen : List.length dw = List.length di.

Lemma length_nonzero {A : Type} (l : list A) : l <> [] -> (List.length l =? 0)%nat = false.
Proof. destruct l; [congruence | reflexivity]. Qed.

(** On well-formed spectra the body runs to its end without raising. *)
Lemma correlation_body_wf :
  correlation_body self dw di
  = let query_interp := Np.resample qw qi (Np.common_grid qw dw) in
    let db_interp := Np.resample dw di (Np.common_grid qw dw) in
    if Req_dec_T (Np.std query_interp) 0 then Py.Ok 0 else
    if Req_dec_T (Np.std db_interp) 0 then Py.Ok 0 else
    Py.Ok (Np.clip01 (Rabs (Np.corrcoef01
       (map (fun v => (v - Np.mean query_interp) / Np.std query_interp) query_interp)
       (map (fun v => (v - Np.mean db_interp) / Np.std db_interp) db_interp)))).
Proof.
  unfold correlation_body.
  assert (Hdi : di <> []) by (destruct di, dw; cbn in *; congruence).
  rewrite (length_nonzero dw Hdw), (length_nonzero di Hdi). cbn [orb].
  rewrite Hcw, Hpi. unfold mbind, result_bind. cbn [Py.not_none Py.bind].
  rewrite (amin_min_of qw Hqw), (amin_min_of dw Hdw),
          (amax_max_of qw Hqw), (amax_max_of dw Hdw).
  cbn [Py.bind].
  unfold Np.interp.
  rewrite (length_nonzero qw Hqw), (length_nonzero dw Hdw).
  rewrite <- Hqlen, <- Hdlen, !Nat.eqb_refl. cbn [Py.bind].
  rewrite py_max_Rmax, py_min_Rmin. reflexivity.
Qed.

End Correlation.

Section CorrelationCases.

Import App.
Local Open Scope R_scope.

(** A spectrum resampled at points none of which lies below its last
    wavenumber is flat. *)
Lemma resample_beyond_flat (xp fp grid : list R) :
  xp <> [] -> List.length xp = List.length fp ->
  (forall x, In x grid -> Np.max_of xp <= x) ->
  Np.var (Np.resample xp fp grid) = 0.
Proof.
  intros Hne Hlen Hgrid. apply (var_const _ (List.last fp 0)).
  intros v Hv. apply in_map_iff in Hv as (x & <- & Hx).
  apply interp_at_beyond; [exact Hne | exact Hlen |].
  intros k Hk. pose proof (max_of_upper xp k Hk). pose proof (Hgrid x Hx). lra.
Qed.

Variable self : app.
Variables qw qi dw di : list R.
Hypothesis Hcw : current_wavenumbers self = Some qw.
Hypothesis Hpi : processed_intensities self = Some qi.
Hypothesis Hqw : qw <> [].
Hypothesis Hqlen : List.length qw = List.length qi.
Hypothesis Hdw : dw <> [].
Hypothesis Hdlen : List.length dw = List.length di.

Lemma correlation_zero_variance :
  Np.var (Np.resample qw qi (Np.common_grid qw dw)) = 0 \/
  Np.var (Np.resample dw di (Np.common_grid qw dw)) = 0 ->
  calculate_correlation_score self dw di = 0.
Proof.
  intros H. unfold calculate_correlation_score.
  rewrite (correlation_body_wf self qw qi dw di) by assumption. cbv zeta.
  destruct (Req_dec_T (Np.std (Np.resample qw qi _)) 0) as [_|Hq]; [reflexivity|].
  destruct (Req_dec_T (Np.std (Np.resample dw di _)) 0) as [_|Hd]; [reflexivity|].
  exfalso. destruct H as [H|H]; apply std_zero_iff in H; contradiction.
Qed.

Lemma correlation_no_overlap :
  Np.overlap_end qw dw <= Np.overlap_start qw dw ->
  calculate_correlation_score self dw di = 0.
Proof.
  intros Hov. apply correlation_zero_variance.
  assert (Hgrid : forall x, In x (Np.common_grid qw dw) -> Np.overlap_end qw dw <= x).
  { intros x Hx. eapply linspace_lower; [exact Hov | exact Hx]. }
  unfold Np.overlap_end in Hgrid at 1. unfold Rmin in Hgrid.
  destruct (Rle_dec (Np.max_of qw) (Np.max_of dw)).
  - left. apply resample_beyond_flat; assumption.
  - right. apply resample_beyond_flat; assumption.
Qed.

End CorrelationCases.
